(** * Mean Arterial Pressure tool: a shallow embedding of [main.py]

    The program is one FastAPI endpoint, [POST /calculate].  A form with the
    two fields [systolic_bp] and [diastolic_bp] is validated against the
    pydantic model [MAPFormInput]; on success the handler [calculate_map]
    evaluates [(systolic_bp + 2 * diastolic_bp) / 3], rounds the quotient to
    one decimal place and returns it in a [MAPFormOutput].

    Python's [int] is unbounded and is modelled by [Z].  Python's [float] is
    IEEE 754 binary64 and is modelled bit for bit by the Standard Library's
    [spec_float] with a 53 bit significand: the true division of two
    integers and [round(x, ndigits)] are both correctly rounded operations,
    which are written out below over exact integer arithmetic. *)

From Stdlib Require Import ZArith List Bool Lia String.
From Stdlib Require Import SpecFloat.
Import ListNotations.
Open Scope Z_scope.

(** ** Python floats *)

Module PyFloat.

(** binary64: 53 bits of significand, infinities at exponent 1024. *)
Definition prec : Z := 53.
Definition emax : Z := 1024.

Definition float : Type := spec_float.

(** The float nearest to the exact quotient [num / den] (ties to even),
    with sign bit [neg].  The quotient is formed with enough bits for
    the rounding digit and the sticky position to be exact. *)
Definition of_ratio (neg : bool) (num den : positive) : float :=
  let '(mz, ez, lz) := SFdiv_core_binary prec emax (Zpos num) 0 (Zpos den) 0 in
  binary_round_aux prec emax neg mz ez lz.

(** The float denoted by a decimal literal with [places] digits after the
    point, given by its digits read as an integer: [decimal 933 1] is the
    literal [93.3]. *)
Definition decimal (digits : Z) (places : nat) : float :=
  let den := Z.to_pos (10 ^ Z.of_nat places) in
  match digits with
  | Z0 => S754_zero false
  | Zpos n => of_ratio false n den
  | Zneg n => of_ratio true n den
  end.

(** The integer nearest to [num / den] for [den > 0], ties to the even
    neighbour. *)
Definition round_half_even (num den : Z) : Z :=
  let (q, r) := Z.div_eucl num den in
  match 2 * r ?= den with
  | Lt => q
  | Gt => q + 1
  | Eq => if Z.even q then q else q + 1
  end.

(** Python's [==] on floats is the IEEE comparison. *)
Definition eqb (x y : float) : bool := SFeqb x y.

End PyFloat.

(** ** Exceptions

    The two arithmetic operations of the handler can raise; a computation
    either returns a value or raises. *)

Inductive PyExc : Type :=
| ZeroDivisionError
| OverflowError.

Inductive result (A : Type) : Type :=
| Returns (a : A)
| Raises (e : PyExc).

Arguments Returns {A} a.
Arguments Raises {A} e.

Definition bind {A B : Type} (m : result A) (k : A -> result B) : result B :=
  match m with
  | Returns a => k a
  | Raises e => Raises e
  end.

Notation "x <- m ;; k" := (bind m (fun x => k))
  (at level 61, m at next level, right associativity).

(** An infinite result of an operation on finite operands is reported as
    [OverflowError]. *)
Definition finite_or_overflow (x : PyFloat.float) : result PyFloat.float :=
  match x with
  | S754_infinity _ => Raises OverflowError
  | _ => Returns x
  end.

(** [a / b] on two [int]s: the correctly rounded quotient. *)
Definition int_truediv (a b : Z) : result PyFloat.float :=
  match b with
  | Z0 => Raises ZeroDivisionError
  | _ =>
      let negate := xorb (a <? 0) (b <? 0) in
      match a with
      | Z0 => Returns (S754_zero negate)
      | _ =>
          finite_or_overflow
            (PyFloat.of_ratio negate (Z.to_pos (Z.abs a)) (Z.to_pos (Z.abs b)))
      end
  end.

(** [round(x, ndigits)] on a [float] with [ndigits] given: the exact value of
    [x] is rounded, ties to even, to a decimal with [ndigits] digits after
    the point, and the float nearest to that decimal is returned.  Infinities
    and NaN round to themselves, as do finite values when [ndigits] exceeds
    323; below -308 digits the result is a zero with the sign of [x]. *)
Definition round (x : PyFloat.float) (ndigits : Z) : result PyFloat.float :=
  match x with
  | S754_finite s m e =>
      if ndigits >? 323 then Returns x
      else if ndigits <? -308 then Returns (S754_zero s)
      else
        let num := Zpos m * 2 ^ Z.max e 0 * 10 ^ Z.max ndigits 0 in
        let den := 2 ^ Z.max (- e) 0 * 10 ^ Z.max (- ndigits) 0 in
        match PyFloat.round_half_even num den * 10 ^ Z.max (- ndigits) 0 with
        | Zpos n =>
            finite_or_overflow
              (PyFloat.of_ratio s n (Z.to_pos (10 ^ Z.max ndigits 0)))
        | _ => Returns (S754_zero s)
        end
  | _ => Returns x
  end.

(** ** The pydantic models *)

(** The bound metadata of an integer field: [Field(ge=..., le=...)]. *)
Record Field : Type := { ge : Z; le : Z }.

(** Why a submitted value cannot be read as an [int]: it is no numeral, or
    it is a numeral of more digits than the parser takes (over 4300). *)
Inductive ParseFailure : Type :=
| no_numeral
| too_many_digits.

(** What a submitted form holds for one field once pydantic has tried to
    read it as an [int]: no value (the field is absent, or submitted empty),
    a value that cannot be read as an integer, or the integer read. *)
Inductive FormValue : Type :=
| Absent
| NotInt (why : ParseFailure)
| IntValue (z : Z).

Inductive ErrorType : Type :=
| missing
| int_parsing
| int_parsing_size
| greater_than_equal (bound : Z)
| less_than_equal (bound : Z).

Record ErrorDetails : Type := { loc : list string; type : ErrorType }.

(** Validation of one required, bounded [int] field of the form body. *)
Definition validate_int (name : string) (f : Field) (v : FormValue)
  : ErrorDetails + Z :=
  let at_field := ["body"; name]%string in
  match v with
  | Absent => inl {| loc := at_field; type := missing |}
  | NotInt no_numeral => inl {| loc := at_field; type := int_parsing |}
  | NotInt too_many_digits =>
      inl {| loc := at_field; type := int_parsing_size |}
  | IntValue z =>
      if le f <? z then inl {| loc := at_field; type := less_than_equal (le f) |}
      else if z <? ge f then inl {| loc := at_field; type := greater_than_equal (ge f) |}
      else inr z
  end.

(** What a field outside its bounds is reported as. *)
Definition range_error (name : string) (f : Field) (z : Z) : ErrorDetails :=
  {| loc := ["body"; name]%string;
     type := if z <? ge f then greater_than_equal (ge f)
             else less_than_equal (le f) |}.

Definition errors_of {A : Type} (r : ErrorDetails + A) : list ErrorDetails :=
  match r with
  | inl e => [e]
  | inr _ => []
  end.

Module MAPFormInput.

Record t : Type := { systolic_bp : Z; diastolic_bp : Z }.

Definition systolic_bp_field : Field := {| ge := 50; le := 250 |}.
Definition diastolic_bp_field : Field := {| ge := 30; le := 150 |}.

(** Every field is validated, and the errors of all fields are reported
    together, in the order of declaration. *)
Definition validate (s d : FormValue) : list ErrorDetails + t :=
  match validate_int "systolic_bp" systolic_bp_field s,
        validate_int "diastolic_bp" diastolic_bp_field d with
  | inr s', inr d' => inr {| systolic_bp := s'; diastolic_bp := d' |}
  | rs, rd => inl (errors_of rs ++ errors_of rd)
  end.

(** The invariant the field metadata declares. *)
Definition in_bounds (data : t) : Prop :=
  50 <= systolic_bp data <= 250 /\ 30 <= diastolic_bp data <= 150.

End MAPFormInput.

Module MAPFormOutput.

Record t : Type := { map : PyFloat.float }.

End MAPFormOutput.

(** ** The handler *)

Definition calculate_map (data : MAPFormInput.t) : result MAPFormOutput.t :=
  map_value <- int_truediv
    (MAPFormInput.systolic_bp data + 2 * MAPFormInput.diastolic_bp data) 3 ;;
  map_value <- round map_value 1 ;;
  Returns {| MAPFormOutput.map := map_value |}.

(** ** The endpoint

    The framework validates the form, calls the handler only on a validated
    model, and turns the outcome into a response.  The calls of the handler
    are logged, so that what reaches the formula can be stated. *)

Inductive Response : Type :=
| OK (body : MAPFormOutput.t)
| UnprocessableEntity (detail : list ErrorDetails)
| InternalServerError (exc : PyExc).

Inductive Event : Type :=
| Call_calculate_map (data : MAPFormInput.t).

Definition post_calculate (s d : FormValue) : list Event * Response :=
  match MAPFormInput.validate s d with
  | inl detail => ([], UnprocessableEntity detail)
  | inr data =>
      ([Call_calculate_map data],
       match calculate_map data with
       | Returns body => OK body
       | Raises exc => InternalServerError exc
       end)
  end.

(** The response alone. *)
Definition compute (s d : FormValue) : Response := snd (post_calculate s d).

(** ** Ranges of integers, for the finitely many values of the formula *)

Definition zrange (lo : Z) (len : nat) : list Z :=
  List.map (fun i => lo + Z.of_nat i) (seq 0 len).

(** The formula in one expression, on the sum [n = systolic_bp + 2 * diastolic_bp]. *)
Definition rounded_third (n : Z) : result PyFloat.float :=
  q <- int_truediv n 3 ;; round q 1.

(** The same value over the rationals: [10 * n / 3] rounded to the nearest
    integer gives the digits of the decimal (a third is never a tie), and the
    float is the one that decimal denotes. *)
Definition exact_third (n : Z) : PyFloat.float :=
  PyFloat.decimal ((20 * n + 3) / 6) 1.

(** ** Reading the validation outcome *)

(** A form value the field accepts: an integer within the declared bounds. *)
Definition acceptable (f : Field) (v : FormValue) : bool :=
  match v with
  | IntValue z => (ge f <=? z) && (z <=? le f)
  | _ => false
  end.

(** An error type that tells what is wrong with the value submitted for a
    field: there is no value, it is no numeral, it is a numeral of too many
    digits, or it is an integer on the wrong side of the bound the error
    names. *)
Definition describes (f : Field) (v : FormValue) (t : ErrorType) : Prop :=
  match v, t with
  | Absent, missing => True
  | NotInt no_numeral, int_parsing => True
  | NotInt too_many_digits, int_parsing_size => True
  | IntValue z, greater_than_equal b => b = ge f /\ z < b
  | IntValue z, less_than_equal b => b = le f /\ b < z
  | _, _ => False
  end.

(** Where the errors of the two fields are located. *)
Definition loc_systolic_bp : list string := ["body"; "systolic_bp"]%string.
Definition loc_diastolic_bp : list string := ["body"; "diastolic_bp"]%string.

(** The order of Python's [<] on floats. *)
Definition float_ltb (x y : PyFloat.float) : bool := SFltb x y.
Definition float_leb (x y : PyFloat.float) : bool := SFleb x y.

Example decimal_93_3 :
  PyFloat.decimal 933 1 = S754_finite false 6565403831776051 (-46).
Proof. reflexivity. Qed.

Example truediv_280_3 :
  int_truediv 280 3 = Returns (S754_finite false 6567749456581973 (-46)).
Proof. reflexivity. Qed.

Example round_2_675 :
  round (PyFloat.decimal 2675 3) 2 = Returns (PyFloat.decimal 267 2).
Proof. vm_compute. reflexivity. Qed.

Example round_half_to_even :
  round (PyFloat.decimal 25 1) 0 = Returns (PyFloat.decimal 2 0) /\
  round (PyFloat.decimal 35 1) 0 = Returns (PyFloat.decimal 4 0).
Proof. split; vm_compute; reflexivity. Qed.

(** ** Helper lemmas *)

Lemma In_zrange (lo : Z) (len : nat) (n : Z) :
  lo <= n < lo + Z.of_nat len -> In n (zrange lo len).
Proof.
  intros Hn. unfold zrange. apply in_map_iff.
  exists (Z.to_nat (n - lo)). split.
  - rewrite Z2Nat.id; lia.
  - apply in_seq. lia.
Qed.

(** A pointwise equation between two functions on a range follows from the
    equation between their tables, which evaluation decides. *)
Lemma on_zrange {A : Type} (f g : Z -> A) (lo : Z) (len : nat) :
  List.map f (zrange lo len) = List.map g (zrange lo len) ->
  forall n, lo <= n < lo + Z.of_nat len -> f n = g n.
Proof.
  intros Htable n Hn.
  rewrite map_ext_in_iff in Htable.
  apply Htable. now apply In_zrange.
Qed.

(** The sums the validated fields can form. *)
Lemma sum_in_range (s d : Z) :
  50 <= s <= 250 -> 30 <= d <= 150 -> 110 <= s + 2 * d < 110 + Z.of_nat 441.
Proof. lia. Qed.

(** On every such sum the float computation returns the float of the exactly
    rounded decimal: neither the division's rounding error nor the choice of
    tie rule shows in the result. *)
Lemma rounded_third_exact (n : Z) :
  110 <= n < 110 + Z.of_nat 441 -> rounded_third n = Returns (exact_third n).
Proof.
  revert n. apply on_zrange. vm_compute. reflexivity.
Qed.

(** Rounding such a result again gives it back. *)
Lemma round_exact_third (n : Z) :
  110 <= n < 110 + Z.of_nat 441 ->
  round (exact_third n) 1 = Returns (exact_third n).
Proof.
  revert n.
  apply (on_zrange (fun n => round (exact_third n) 1)
                   (fun n => Returns (exact_third n))).
  vm_compute. reflexivity.
Qed.

Lemma exact_third_eqb (n : Z) :
  110 <= n < 110 + Z.of_nat 441 ->
  PyFloat.eqb (exact_third n) (exact_third n) = true.
Proof.
  revert n.
  apply (on_zrange (fun n => PyFloat.eqb (exact_third n) (exact_third n))
                   (fun _ => true)).
  vm_compute. reflexivity.
Qed.

Lemma validate_int_accepts (name : string) (f : Field) (z : Z) :
  ge f <= z <= le f -> validate_int name f (IntValue z) = inr z.
Proof.
  intros [Hge Hle]. unfold validate_int.
  destruct (Z.ltb_spec (le f) z); [lia|].
  destruct (Z.ltb_spec z (ge f)); [lia|].
  reflexivity.
Qed.

Lemma validate_int_inr (name : string) (f : Field) (v : FormValue) (z : Z) :
  validate_int name f v = inr z -> v = IntValue z /\ ge f <= z <= le f.
Proof.
  unfold validate_int. destruct v as [| [] | z']; try discriminate.
  destruct (Z.ltb_spec (le f) z'); [discriminate|].
  destruct (Z.ltb_spec z' (ge f)); [discriminate|].
  intros [= ->]. split; [reflexivity | lia].
Qed.

Lemma validate_int_rejects (name : string) (f : Field) (z : Z) :
  ge f <= le f -> z < ge f \/ le f < z ->
  validate_int name f (IntValue z) = inl (range_error name f z).
Proof.
  intros Hf Hz. unfold validate_int, range_error.
  destruct (Z.ltb_spec (le f) z); destruct (Z.ltb_spec z (ge f));
    try reflexivity; lia.
Qed.

Lemma validate_accepts (s d : Z) :
  50 <= s <= 250 -> 30 <= d <= 150 ->
  MAPFormInput.validate (IntValue s) (IntValue d) =
  inr {| MAPFormInput.systolic_bp := s; MAPFormInput.diastolic_bp := d |}.
Proof.
  intros Hs Hd. unfold MAPFormInput.validate.
  rewrite !validate_int_accepts by assumption. reflexivity.
Qed.

Lemma validate_inr (s d : FormValue) (data : MAPFormInput.t) :
  MAPFormInput.validate s d = inr data ->
  s = IntValue (MAPFormInput.systolic_bp data) /\
  d = IntValue (MAPFormInput.diastolic_bp data) /\
  MAPFormInput.in_bounds data.
Proof.
  unfold MAPFormInput.validate.
  destruct (validate_int "systolic_bp" _ s) as [es | s'] eqn:Hs;
    destruct (validate_int "diastolic_bp" _ d) as [ed | d'] eqn:Hd;
    try discriminate.
  intros [= <-]. apply validate_int_inr in Hs, Hd.
  destruct Hs as [-> Hs], Hd as [-> Hd]. simpl in *.
  unfold MAPFormInput.in_bounds. simpl. auto.
Qed.

Lemma calculate_map_in_bounds (data : MAPFormInput.t) :
  MAPFormInput.in_bounds data ->
  calculate_map data =
  Returns {| MAPFormOutput.map :=
    exact_third (MAPFormInput.systolic_bp data
                 + 2 * MAPFormInput.diastolic_bp data) |}.
Proof.
  intros [Hs Hd]. pose proof (sum_in_range _ _ Hs Hd) as Hn.
  pose proof (rounded_third_exact _ Hn) as Hr.
  unfold rounded_third in Hr. unfold calculate_map.
  destruct (int_truediv _ 3) as [q | e]; simpl in *; [| discriminate].
  rewrite Hr. reflexivity.
Qed.

Lemma post_calculate_in_bounds (s d : Z) :
  50 <= s <= 250 -> 30 <= d <= 150 ->
  post_calculate (IntValue s) (IntValue d) =
  ([Call_calculate_map
      {| MAPFormInput.systolic_bp := s; MAPFormInput.diastolic_bp := d |}],
   OK {| MAPFormOutput.map := exact_third (s + 2 * d) |}).
Proof.
  intros Hs Hd. unfold post_calculate.
  rewrite validate_accepts by assumption.
  rewrite calculate_map_in_bounds by (split; assumption).
  reflexivity.
Qed.

(** ** The properties of [POST /calculate] *)

(** C1: for all integers [s] in [50, 250] and [d] in [30, 150] the endpoint
    answers with a result whose [map] field is [round((s + 2*d) / 3, 1)]:
    the float division of the sum by 3 returns a float [q], rounding [q] to
    one decimal place returns a float [m], and [m] is the [map] field of the
    response. *)
Theorem calculate_map_rounded_formula (s d : Z) :
  50 <= s <= 250 -> 30 <= d <= 150 ->
  exists q m,
    int_truediv (s + 2 * d) 3 = Returns q /\
    round q 1 = Returns m /\
    compute (IntValue s) (IntValue d) = OK {| MAPFormOutput.map := m |}.
Proof.
  intros Hs Hd.
  pose proof (rounded_third_exact _ (sum_in_range _ _ Hs Hd)) as Hr.
  unfold rounded_third in Hr.
  destruct (int_truediv (s + 2 * d) 3) as [q | e]; simpl in Hr; [| discriminate].
  exists q, (exact_third (s + 2 * d)). repeat split; trivial.
  unfold compute. now rewrite post_calculate_in_bounds.
Qed.

Lemma calculate_map_rounded_formula_witness :
  exists q m,
    int_truediv (120 + 2 * 80) 3 = Returns q /\
    round q 1 = Returns m /\
    compute (IntValue 120) (IntValue 80) = OK {| MAPFormOutput.map := m |}.
Proof. apply (calculate_map_rounded_formula 120 80); lia. Defined.

(** C2, as stated: at the upper bounds, [systolic_bp = 250] and
    [diastolic_bp = 150], the [map] field would be 216.7.  It is not. *)
Lemma upper_bounds_not_216_7 :
  compute (IntValue 250) (IntValue 150)
  <> OK {| MAPFormOutput.map := PyFloat.decimal 2167 1 |}.
Proof. vm_compute. discriminate. Qed.

(** C2, amended: at the upper bounds, [systolic_bp = 250] and
    [diastolic_bp = 150], the sum is 550 and the [map] field is 183.3. *)
Theorem upper_bounds_183_3 :
  compute (IntValue 250) (IntValue 150)
  = OK {| MAPFormOutput.map := PyFloat.decimal 1833 1 |}.
Proof. vm_compute. reflexivity. Qed.

(** C3: when [systolic_bp] is an integer below 50 or above 250, whatever the
    form holds for [diastolic_bp], the handler is not called and the response
    is a validation error whose details hold the violated bound of the field
    [systolic_bp]. *)
Theorem systolic_bp_out_of_range (s : Z) (d : FormValue) :
  s < 50 \/ 250 < s ->
  exists detail,
    post_calculate (IntValue s) d = ([], UnprocessableEntity detail) /\
    In {| loc := ["body"; "systolic_bp"]%string;
          type := if s <? 50 then greater_than_equal 50
                  else less_than_equal 250 |} detail.
Proof.
  intros Hs. unfold post_calculate, MAPFormInput.validate.
  rewrite (validate_int_rejects "systolic_bp" MAPFormInput.systolic_bp_field s)
    by (simpl; lia).
  destruct (validate_int "diastolic_bp" _ d) as [ed | d'];
    eexists; (split; [reflexivity | left; reflexivity]).
Qed.

Lemma systolic_bp_out_of_range_witness :
  exists detail,
    post_calculate (IntValue 49) (IntValue 80) = ([], UnprocessableEntity detail) /\
    In {| loc := ["body"; "systolic_bp"]%string;
          type := if 49 <? 50 then greater_than_equal 50
                  else less_than_equal 250 |} detail.
Proof. apply (systolic_bp_out_of_range 49 (IntValue 80)). left. lia. Defined.

(** C4: when [diastolic_bp] is an integer below 30 or above 150, whatever the
    form holds for [systolic_bp], the handler is not called and the response
    is a validation error whose details hold the violated bound of the field
    [diastolic_bp]. *)
Theorem diastolic_bp_out_of_range (s : FormValue) (d : Z) :
  d < 30 \/ 150 < d ->
  exists detail,
    post_calculate s (IntValue d) = ([], UnprocessableEntity detail) /\
    In {| loc := ["body"; "diastolic_bp"]%string;
          type := if d <? 30 then greater_than_equal 30
                  else less_than_equal 150 |} detail.
Proof.
  intros Hd. unfold post_calculate, MAPFormInput.validate.
  rewrite (validate_int_rejects "diastolic_bp" MAPFormInput.diastolic_bp_field d)
    by (simpl; lia).
  destruct (validate_int "systolic_bp" _ s) as [es | s'];
    eexists; (split; [reflexivity |]).
  - right. left. reflexivity.
  - left. reflexivity.
Qed.

Lemma diastolic_bp_out_of_range_witness :
  exists detail,
    post_calculate (IntValue 120) (IntValue 29) = ([], UnprocessableEntity detail) /\
    In {| loc := ["body"; "diastolic_bp"]%string;
          type := if 29 <? 30 then greater_than_equal 30
                  else less_than_equal 150 |} detail.
Proof. apply (diastolic_bp_out_of_range (IntValue 120) 29). left. lia. Defined.

(** C5: the formula is only evaluated on validated input.  Every call of the
    handler that a request causes is on a model whose fields are the
    submitted integers and satisfy [50 <= systolic_bp <= 250] and
    [30 <= diastolic_bp <= 150]; and on such a model the handler raises
    nothing, it returns. *)
Theorem formula_only_on_validated_input (s d : FormValue) (data : MAPFormInput.t) :
  In (Call_calculate_map data) (fst (post_calculate s d)) ->
  MAPFormInput.in_bounds data /\
  s = IntValue (MAPFormInput.systolic_bp data) /\
  d = IntValue (MAPFormInput.diastolic_bp data) /\
  exists body, calculate_map data = Returns body.
Proof.
  unfold post_calculate.
  destruct (MAPFormInput.validate s d) as [detail | data'] eqn:Hv; simpl.
  - intros [].
  - intros [[= <-] | []].
    destruct (validate_inr _ _ _ Hv) as (Hs & Hd & Hb).
    repeat split; try assumption; try apply Hb.
    eexists. now apply calculate_map_in_bounds.
Qed.

Lemma formula_only_on_validated_input_witness :
  MAPFormInput.in_bounds
    {| MAPFormInput.systolic_bp := 120; MAPFormInput.diastolic_bp := 80 |} /\
  IntValue 120 = IntValue 120 /\
  IntValue 80 = IntValue 80 /\
  exists body,
    calculate_map
      {| MAPFormInput.systolic_bp := 120; MAPFormInput.diastolic_bp := 80 |}
    = Returns body.
Proof.
  apply (formula_only_on_validated_input (IntValue 120) (IntValue 80)
           {| MAPFormInput.systolic_bp := 120; MAPFormInput.diastolic_bp := 80 |}).
  vm_compute. left. reflexivity.
Defined.

(** C6: with [systolic_bp = 120] and [diastolic_bp = 80] the [map] field of
    the result is 93.3. *)
Theorem example_120_80 :
  compute (IntValue 120) (IntValue 80)
  = OK {| MAPFormOutput.map := PyFloat.decimal 933 1 |}.
Proof. vm_compute. reflexivity. Qed.

(** C7: at the lower bounds, [systolic_bp = 50] and [diastolic_bp = 30], the
    [map] field of the result is 36.7. *)
Theorem lower_bounds_36_7 :
  compute (IntValue 50) (IntValue 30)
  = OK {| MAPFormOutput.map := PyFloat.decimal 367 1 |}.
Proof. vm_compute. reflexivity. Qed.

(** C9: for every in-range pair the returned [map] value is already rounded
    to one decimal place: [round(map, 1)] returns [map] itself, and the two
    compare equal under [==]. *)
Theorem map_already_rounded (s d : Z) :
  50 <= s <= 250 -> 30 <= d <= 150 ->
  exists m,
    compute (IntValue s) (IntValue d) = OK {| MAPFormOutput.map := m |} /\
    round m 1 = Returns m /\
    PyFloat.eqb m m = true.
Proof.
  intros Hs Hd. pose proof (sum_in_range _ _ Hs Hd) as Hn.
  exists (exact_third (s + 2 * d)). split; [| split].
  - unfold compute. now rewrite post_calculate_in_bounds.
  - now apply round_exact_third.
  - now apply exact_third_eqb.
Qed.

Lemma map_already_rounded_witness :
  exists m,
    compute (IntValue 121) (IntValue 80) = OK {| MAPFormOutput.map := m |} /\
    round m 1 = Returns m /\
    PyFloat.eqb m m = true.
Proof. apply (map_already_rounded 121 80); lia. Defined.

(** C10: there is no check across the two fields.  For every [systolic_bp]
    in [50, 250] and [diastolic_bp] in [30, 150] with
    [diastolic_bp >= systolic_bp] the handler is called and the response is a
    result; for [systolic_bp = 50] and [diastolic_bp = 150] its [map] field
    is 116.7. *)
Theorem no_cross_field_check (s d : Z) :
  50 <= s <= 250 -> 30 <= d <= 150 -> s <= d ->
  exists m,
    post_calculate (IntValue s) (IntValue d) =
    ([Call_calculate_map
        {| MAPFormInput.systolic_bp := s; MAPFormInput.diastolic_bp := d |}],
     OK {| MAPFormOutput.map := m |}) /\
    (s = 50 -> d = 150 -> m = PyFloat.decimal 1167 1).
Proof.
  intros Hs Hd _. exists (exact_third (s + 2 * d)). split.
  - now apply post_calculate_in_bounds.
  - intros -> ->. vm_compute. reflexivity.
Qed.

Lemma no_cross_field_check_witness :
  exists m,
    post_calculate (IntValue 50) (IntValue 150) =
    ([Call_calculate_map
        {| MAPFormInput.systolic_bp := 50; MAPFormInput.diastolic_bp := 150 |}],
     OK {| MAPFormOutput.map := m |}) /\
    (50 = 50 -> 150 = 150 -> m = PyFloat.decimal 1167 1).
Proof. apply (no_cross_field_check 50 150); lia. Defined.


(** ** Further properties of validation *)

Lemma validate_int_spec (name : string) (f : Field) (v : FormValue) :
  match validate_int name f v with
  | inl e =>
      acceptable f v = false /\ loc e = ["body"; name]%string /\
      describes f v (type e)
  | inr z => acceptable f v = true /\ v = IntValue z
  end.
Proof.
  unfold validate_int, acceptable, describes.
  destruct v as [| [] | z]; simpl; auto.
  destruct (Z.ltb_spec (le f) z); simpl.
  - repeat split; trivial.
    destruct (Z.leb_spec z (le f)); [lia | apply andb_false_r].
  - destruct (Z.ltb_spec z (ge f)); simpl.
    + repeat split; trivial.
      destruct (Z.leb_spec (ge f) z); [lia | reflexivity].
    + split; trivial.
      apply andb_true_intro; split; apply Z.leb_le; lia.
Qed.

Lemma validate_inl_nonempty (s d : FormValue) (detail : list ErrorDetails) :
  MAPFormInput.validate s d = inl detail -> detail <> [].
Proof.
  unfold MAPFormInput.validate.
  destruct (validate_int "systolic_bp" _ s), (validate_int "diastolic_bp" _ d);
    intros [= <-]; discriminate.
Qed.

(** X1: the endpoint answers with a result exactly when both submitted
    values are integers within the bounds of their fields. *)
Theorem accepted_iff_in_bounds (s d : FormValue) :
  (exists body, compute s d = OK body) <->
  (exists s' d', s = IntValue s' /\ d = IntValue d' /\
                 50 <= s' <= 250 /\ 30 <= d' <= 150).
Proof.
  split.
  - intros [body Hb]. unfold compute, post_calculate in Hb.
    destruct (MAPFormInput.validate s d) as [detail | data] eqn:Hv;
      simpl in Hb; [discriminate|].
    destruct (validate_inr _ _ _ Hv) as (Hs & Hd & Hbs & Hbd).
    eauto 6.
  - intros (s' & d' & -> & -> & Hs & Hd).
    unfold compute. rewrite post_calculate_in_bounds by assumption.
    simpl. eauto.
Qed.

(** X2: whatever the form holds, the endpoint never fails with a server
    error.  Either the handler is called once, returns, and what it returns
    is the response, or the handler is not called and the response is a
    validation error with at least one entry. *)
Theorem result_or_validation_error (s d : FormValue) :
  (exists data body,
     calculate_map data = Returns body /\
     post_calculate s d = ([Call_calculate_map data], OK body)) \/
  (exists detail,
     post_calculate s d = ([], UnprocessableEntity detail) /\ detail <> []).
Proof.
  unfold post_calculate.
  destruct (MAPFormInput.validate s d) as [detail | data] eqn:Hv.
  - right. exists detail. split; [reflexivity|].
    now apply validate_inl_nonempty with s d.
  - left. destruct (validate_inr _ _ _ Hv) as (_ & _ & Hb).
    pose proof (calculate_map_in_bounds _ Hb) as Hc.
    rewrite Hc. eauto.
Qed.

(** X3: a field that is absent from the form is reported as [missing] at
    that field, whatever the other field holds, and the handler is not
    called. *)
Theorem absent_field_reported (other : FormValue) :
  (exists detail,
     post_calculate Absent other = ([], UnprocessableEntity detail) /\
     In {| loc := loc_systolic_bp; type := missing |} detail) /\
  (exists detail,
     post_calculate other Absent = ([], UnprocessableEntity detail) /\
     In {| loc := loc_diastolic_bp; type := missing |} detail).
Proof.
  unfold post_calculate, MAPFormInput.validate. split.
  - simpl. destruct (validate_int "diastolic_bp" _ other);
      eexists; (split; [reflexivity | left; reflexivity]).
  - destruct (validate_int "systolic_bp" _ other); simpl;
      eexists; (split; [reflexivity | simpl; auto]).
Qed.

(** X5: every entry of a validation error is real.  It is located at one of
    the two declared fields and tells what is wrong with the value submitted
    for that field: there is no value, it is no numeral, it is a numeral of
    too many digits, or it is an integer below the lower bound of that field
    or above its upper bound. *)
Theorem reported_errors_are_real
  (s d : FormValue) (detail : list ErrorDetails) (e : ErrorDetails) :
  compute s d = UnprocessableEntity detail ->
  In e detail ->
  (loc e = loc_systolic_bp /\
   describes MAPFormInput.systolic_bp_field s (type e)) \/
  (loc e = loc_diastolic_bp /\
   describes MAPFormInput.diastolic_bp_field d (type e)).
Proof.
  unfold compute, post_calculate, MAPFormInput.validate.
  pose proof (validate_int_spec "systolic_bp" MAPFormInput.systolic_bp_field s) as Hs.
  pose proof (validate_int_spec "diastolic_bp" MAPFormInput.diastolic_bp_field d) as Hd.
  destruct (validate_int "systolic_bp" _ s) as [es | s'];
    destruct (validate_int "diastolic_bp" _ d) as [ed | d']; simpl.
  - intros [= <-] [<- | [<- | []]]; [left | right]; tauto.
  - intros [= <-] [<- | []]. left. tauto.
  - intros [= <-] [<- | []]. right. tauto.
  - destruct (calculate_map _); discriminate.
Qed.

Lemma reported_errors_are_real_witness :
  (loc {| loc := loc_diastolic_bp; type := less_than_equal 150 |}
   = loc_systolic_bp /\
   describes MAPFormInput.systolic_bp_field (IntValue 120)
     (type {| loc := loc_diastolic_bp; type := less_than_equal 150 |})) \/
  (loc {| loc := loc_diastolic_bp; type := less_than_equal 150 |}
   = loc_diastolic_bp /\
   describes MAPFormInput.diastolic_bp_field (IntValue 151)
     (type {| loc := loc_diastolic_bp; type := less_than_equal 150 |})).
Proof.
  apply (reported_errors_are_real (IntValue 120) (IntValue 151)
           [{| loc := loc_diastolic_bp; type := less_than_equal 150 |}]).
  - reflexivity.
  - left. reflexivity.
Defined.

(** X6: validation does not stop at the first failure.  A validation error
    has exactly one entry for each field whose value is not acceptable, the
    entry of [systolic_bp] before that of [diastolic_bp]. *)
Theorem one_error_per_invalid_field
  (s d : FormValue) (detail : list ErrorDetails) :
  compute s d = UnprocessableEntity detail ->
  List.map loc detail =
  (if acceptable MAPFormInput.systolic_bp_field s then [] else [loc_systolic_bp])
  ++ (if acceptable MAPFormInput.diastolic_bp_field d then []
      else [loc_diastolic_bp]).
Proof.
  unfold compute, post_calculate, MAPFormInput.validate.
  pose proof (validate_int_spec "systolic_bp" MAPFormInput.systolic_bp_field s) as Hs.
  pose proof (validate_int_spec "diastolic_bp" MAPFormInput.diastolic_bp_field d) as Hd.
  destruct (validate_int "systolic_bp" _ s) as [es | s'];
    destruct (validate_int "diastolic_bp" _ d) as [ed | d']; simpl;
    try (destruct (calculate_map _); discriminate);
    intros [= <-]; simpl.
  - destruct Hs as (-> & -> & _), Hd as (-> & -> & _). reflexivity.
  - destruct Hs as (-> & -> & _), Hd as (-> & _). reflexivity.
  - destruct Hs as (-> & _), Hd as (-> & -> & _). reflexivity.
Qed.

Lemma one_error_per_invalid_field_witness :
  List.map loc [{| loc := loc_systolic_bp; type := greater_than_equal 50 |};
                {| loc := loc_diastolic_bp; type := missing |}] =
  (if acceptable MAPFormInput.systolic_bp_field (IntValue 49) then []
   else [loc_systolic_bp])
  ++ (if acceptable MAPFormInput.diastolic_bp_field Absent then []
      else [loc_diastolic_bp]).
Proof.
  apply (one_error_per_invalid_field (IntValue 49) Absent). reflexivity.
Defined.

(** ** Further properties of the computed value *)

Lemma nearest_tenth_of_third (n : Z) :
  -1 <= 3 * ((20 * n + 3) / 6) - 10 * n <= 1.
Proof.
  pose proof (Z.div_mod (20 * n + 3) 6 ltac:(lia)) as Hdiv.
  pose proof (Z.mod_pos_bound (20 * n + 3) 6 ltac:(lia)) as Hmod.
  lia.
Qed.

(** A property of both values at any two sums of the range follows from its
    table over the square of the range. *)
Lemma on_zrange2 (p : Z -> Z -> bool) (lo : Z) (len : nat) :
  forallb (fun n => forallb (p n) (zrange lo len)) (zrange lo len) = true ->
  forall n n', lo <= n < lo + Z.of_nat len -> lo <= n' < lo + Z.of_nat len ->
               p n n' = true.
Proof.
  intros Htable n n' Hn Hn'.
  rewrite forallb_forall in Htable.
  specialize (Htable n (In_zrange _ _ _ Hn)).
  rewrite forallb_forall in Htable.
  apply Htable. now apply In_zrange.
Qed.

Lemma exact_third_increasing (n n' : Z) :
  110 <= n < 110 + Z.of_nat 441 -> 110 <= n' < 110 + Z.of_nat 441 ->
  n < n' -> float_ltb (exact_third n) (exact_third n') = true.
Proof.
  intros Hn Hn' Hlt.
  pose proof (on_zrange2
    (fun a b => implb (a <? b) (float_ltb (exact_third a) (exact_third b)))
    110 441) as Htable.
  specialize (Htable ltac:(vm_compute; reflexivity) n n' Hn Hn').
  simpl in Htable.
  destruct (Z.ltb_spec n n'); [exact Htable | lia].
Qed.

Lemma float_ltb_irrefl (x : PyFloat.float) : float_ltb x x = false.
Proof.
  unfold float_ltb, SFltb.
  destruct x as [[] | [] | | [] m e]; simpl; try reflexivity;
    rewrite Z.compare_refl, Pos.compare_cont_refl; reflexivity.
Qed.

(** X7: the returned value is accurate and does not depend on a tie rule.
    For in-range integers the [map] field is the float of a decimal [k / 10]
    with one digit after the point, and [k / 10] is within one thirtieth of
    the exact quotient [(s + 2*d) / 3], so it is the nearest such decimal and
    no quotient lies halfway between two of them. *)
Theorem map_is_nearest_tenth (s d : Z) :
  50 <= s <= 250 -> 30 <= d <= 150 ->
  exists k,
    compute (IntValue s) (IntValue d)
    = OK {| MAPFormOutput.map := PyFloat.decimal k 1 |} /\
    -1 <= 3 * k - 10 * (s + 2 * d) <= 1.
Proof.
  intros Hs Hd. exists ((20 * (s + 2 * d) + 3) / 6). split.
  - unfold compute. rewrite post_calculate_in_bounds by assumption.
    reflexivity.
  - apply nearest_tenth_of_third.
Qed.

Lemma map_is_nearest_tenth_witness :
  exists k,
    compute (IntValue 120) (IntValue 80)
    = OK {| MAPFormOutput.map := PyFloat.decimal k 1 |} /\
    -1 <= 3 * k - 10 * (120 + 2 * 80) <= 1.
Proof. apply (map_is_nearest_tenth 120 80); lia. Defined.

(** X8: the returned value grows strictly with the weighted sum.  For two
    in-range requests, if [s + 2*d < s' + 2*d'] then the first [map] is
    below the second under [<]; so raising either pressure by one unit
    always raises the reported value. *)
Theorem map_strictly_increasing (s d s' d' : Z) :
  50 <= s <= 250 -> 30 <= d <= 150 ->
  50 <= s' <= 250 -> 30 <= d' <= 150 ->
  s + 2 * d < s' + 2 * d' ->
  exists m m',
    compute (IntValue s) (IntValue d) = OK {| MAPFormOutput.map := m |} /\
    compute (IntValue s') (IntValue d') = OK {| MAPFormOutput.map := m' |} /\
    float_ltb m m' = true.
Proof.
  intros Hs Hd Hs' Hd' Hlt.
  exists (exact_third (s + 2 * d)), (exact_third (s' + 2 * d')).
  unfold compute. rewrite !post_calculate_in_bounds by assumption.
  repeat split.
  apply exact_third_increasing; trivial; now apply sum_in_range.
Qed.

Lemma map_strictly_increasing_witness :
  exists m m',
    compute (IntValue 120) (IntValue 80) = OK {| MAPFormOutput.map := m |} /\
    compute (IntValue 121) (IntValue 80) = OK {| MAPFormOutput.map := m' |} /\
    float_ltb m m' = true.
Proof. apply (map_strictly_increasing 120 80 121 80); lia. Defined.

(** X9: two in-range requests get the same response exactly when their
    weighted sums [s + 2*d] agree: the response depends on the sum alone,
    with [diastolic_bp] counting twice, and distinct sums are never rounded
    to the same value. *)
Theorem same_response_iff_same_sum (s d s' d' : Z) :
  50 <= s <= 250 -> 30 <= d <= 150 ->
  50 <= s' <= 250 -> 30 <= d' <= 150 ->
  (compute (IntValue s) (IntValue d) = compute (IntValue s') (IntValue d')
   <-> s + 2 * d = s' + 2 * d').
Proof.
  intros Hs Hd Hs' Hd'.
  pose proof (sum_in_range _ _ Hs Hd) as Hn.
  pose proof (sum_in_range _ _ Hs' Hd') as Hn'.
  unfold compute. rewrite !post_calculate_in_bounds by assumption.
  cbn [snd]. split.
  - intros Hresp.
    assert (Heq : exact_third (s + 2 * d) = exact_third (s' + 2 * d'))
      by congruence.
    destruct (Z.lt_trichotomy (s + 2 * d) (s' + 2 * d')) as [Hlt | [? | Hgt]];
      trivial; exfalso.
    + pose proof (exact_third_increasing _ _ Hn Hn' Hlt) as H.
      rewrite Heq, float_ltb_irrefl in H. discriminate.
    + pose proof (exact_third_increasing _ _ Hn' Hn Hgt) as H.
      rewrite Heq, float_ltb_irrefl in H. discriminate.
  - intros ->. reflexivity.
Qed.

Lemma same_response_iff_same_sum_witness :
  compute (IntValue 122) (IntValue 80) = compute (IntValue 120) (IntValue 81)
  <-> 122 + 2 * 80 = 120 + 2 * 81.
Proof. apply (same_response_iff_same_sum 122 80 120 81); lia. Defined.

(** X10: the range of the output.  For in-range integers the [map] field
    lies between 36.7 and 183.3, the values at the two corners of the input
    range, under [<=]. *)
Theorem map_between_36_7_and_183_3 (s d : Z) :
  50 <= s <= 250 -> 30 <= d <= 150 ->
  exists m,
    compute (IntValue s) (IntValue d) = OK {| MAPFormOutput.map := m |} /\
    float_leb (PyFloat.decimal 367 1) m = true /\
    float_leb m (PyFloat.decimal 1833 1) = true.
Proof.
  intros Hs Hd. pose proof (sum_in_range _ _ Hs Hd) as Hn.
  exists (exact_third (s + 2 * d)). split; [| split].
  - unfold compute. now rewrite post_calculate_in_bounds.
  - revert Hn. generalize (s + 2 * d).
    apply (on_zrange
             (fun n => float_leb (PyFloat.decimal 367 1) (exact_third n))
             (fun _ => true)).
    vm_compute. reflexivity.
  - revert Hn. generalize (s + 2 * d).
    apply (on_zrange
             (fun n => float_leb (exact_third n) (PyFloat.decimal 1833 1))
             (fun _ => true)).
    vm_compute. reflexivity.
Qed.

Lemma map_between_36_7_and_183_3_witness :
  exists m,
    compute (IntValue 50) (IntValue 150) = OK {| MAPFormOutput.map := m |} /\
    float_leb (PyFloat.decimal 367 1) m = true /\
    float_leb m (PyFloat.decimal 1833 1) = true.
Proof. apply (map_between_36_7_and_183_3 50 150); lia. Defined.

(** X11: when the weighted sum is a multiple of 3 the result is exact: the
    [map] field is the float of the whole number [(s + 2*d) / 3], with no
    rounding error from the division or from [round]. *)
Theorem map_exact_on_multiples_of_3 (s d q : Z) :
  50 <= s <= 250 -> 30 <= d <= 150 ->
  s + 2 * d = 3 * q ->
  compute (IntValue s) (IntValue d)
  = OK {| MAPFormOutput.map := PyFloat.decimal q 0 |}.
Proof.
  intros Hs Hd Hq. pose proof (sum_in_range _ _ Hs Hd) as Hn.
  unfold compute. rewrite post_calculate_in_bounds by assumption.
  cbn [snd]. rewrite Hq in *. do 2 f_equal.
  assert (Hr : 37 <= q < 37 + Z.of_nat 147) by lia.
  clear Hq Hn. revert q Hr.
  apply (on_zrange (fun q => exact_third (3 * q))
                   (fun q => PyFloat.decimal q 0)).
  vm_compute. reflexivity.
Qed.

Lemma map_exact_on_multiples_of_3_witness :
  compute (IntValue 120) (IntValue 90)
  = OK {| MAPFormOutput.map := PyFloat.decimal 100 0 |}.
Proof. apply (map_exact_on_multiples_of_3 120 90 100); lia. Defined.
